(** * tetr.js: the client session layer

    A shallow embedding of [src/index.ts] (classes [EventEmitter], [Client],
    [ClientUser], [Room]) and of the later [ClientUser] class whose methods
    are [join], [leave] and [setPresence].

    The class [WebsocketManager] that both files send through is imported
    but is not part of the sources at hand.  It is taken as an interface
    (type classes below); every theorem holds for all its implementations
    whose methods return normally. *)

From Stdlib Require Import String List ZArith Bool Lia.
Import ListNotations.
Local Open Scope string_scope.
Local Open Scope Z_scope.
Local Open Scope list_scope.
Set Warnings "-register-all".

(** ** JavaScript values carried as payloads and event arguments *)

(** Numbers are kept to the integers plus NaN; objects are their ordered
    list of own properties. *)
Inductive JsVal : Type :=
| VUndefined
| VNull
| VBool (b : bool)
| VNum (n : Z)
| VNaN
| VStr (s : string)
| VArr (items : list JsVal)
| VObj (fields : list (string * JsVal)).

(** ToBoolean: what [if (v)] tests. *)
Definition truthy (v : JsVal) : bool :=
  match v with
  | VUndefined | VNull | VNaN => false
  | VBool b => b
  | VNum n => negb (n =? 0)
  | VStr s => negb (String.eqb s "")
  | VArr _ | VObj _ => true
  end.

(** [if (this.room.id)] on a field of type [string | undefined]. *)
Definition truthy_id (i : option string) : bool :=
  match i with
  | None => false
  | Some s => truthy (VStr s)
  end.

(** ** Wire packets: [{ id?, command, data }] *)

Record Packet : Type := mkPacket {
  pk_id : option Z;
  pk_command : string;
  pk_data : JsVal
}.

(** ** EventEmitter (index.ts, lines 29-52) *)

Section Emitter.
(** Subscriber callbacks are opaque to the emitter: [Func] is the type of
    their identities, and an emit is observed as the calls it makes, each
    callback returning normally. *)
Context {Func : Type}.

Record EventEmitterEvent : Type := mkEvent {
  event : string;
  func : Func
}.

(** One invocation [callee(...arguments)]. *)
Record Invocation : Type := mkInvocation {
  callee : Func;
  arguments : list JsVal
}.

(** [this.events.push({ event, func })] *)
Definition on (ev : string) (f : Func) (events : list EventEmitterEvent)
  : list EventEmitterEvent :=
  events ++ [mkEvent ev f].

(** [if (args) element.func(args); else element.func();] *)
Definition invoke (args : JsVal) (element : EventEmitterEvent) : Invocation :=
  if truthy args then mkInvocation (func element) [args]
  else mkInvocation (func element) [].

(** [emit(event, args?)]: an omitted [args] is [VUndefined].  The result is
    the sequence of calls made, in the order [forEach] makes them. *)
Definition emit (ev : string) (args : JsVal) (events : list EventEmitterEvent)
  : list Invocation :=
  let array := filter (fun x => String.eqb (event x) ev) events in
  map (invoke args) array.

(** Registering a sequence of subscriptions, first to last. *)
Definition on_all (regs : list (string * Func)) (events : list EventEmitterEvent)
  : list EventEmitterEvent :=
  fold_left (fun evs r => on (fst r) (snd r) evs) regs events.

(** The callbacks of [regs] subscribed to [ev], in registration order. *)
Definition subscribers (ev : string) (regs : list (string * Func)) : list Func :=
  map snd (filter (fun r => String.eqb (fst r) ev) regs).
End Emitter.

Arguments EventEmitterEvent : clear implicits.
Arguments Invocation : clear implicits.

(** ** The connection shared by a client and its room and user objects *)

(** [Client], [Room] and [ClientUser] hold references to one
    [WebsocketManager] object.  It is kept once, in the client state, as the
    manager's own state [manager] together with [sent], the packets handed to
    its send method so far, oldest first. *)
Record Connection (W : Type) : Type := mkConnection {
  manager : W;
  sent : list Packet
}.
Arguments mkConnection {W} _ _.
Arguments manager {W} _.
Arguments sent {W} _.

(** [interface Handling] (index.ts, lines 228-233) *)
Record Handling : Type := mkHandling {
  arr : string;
  das : string;
  sdf : string;
  safelock : bool
}.

Inductive Mode : Type := player | spectator.

Definition Mode_value (m : Mode) : JsVal :=
  match m with
  | player => VStr "player"
  | spectator => VStr "spectator"
  end.

Inductive Status : Type := online | away | busy | invisible.

Definition Status_value (s : Status) : JsVal :=
  match s with
  | online => VStr "online"
  | away => VStr "away"
  | busy => VStr "busy"
  | invisible => VStr "invisible"
  end.

(** The argument of [setPresence] in index.ts: [{ status, detail }]. *)
Record PresenceOptions : Type := mkPresence {
  status : Status;
  detail : string
}.

Definition PresenceOptions_value (o : PresenceOptions) : JsVal :=
  VObj [("status", Status_value (status o)); ("detail", VStr (detail o))].

(** One entry of the argument of [setConfig]: [{ index, value }]. *)
Record ConfigOption : Type := mkConfigOption {
  index : string;
  value : JsVal
}.

Definition ConfigOption_value (o : ConfigOption) : JsVal :=
  VObj [("index", VStr (index o)); ("value", value o)].

(** ** index.ts: Client, ClientUser, Room *)

Module Index.

(** The imported [WebsocketManager], by the members index.ts uses:
    [new WebsocketManager(client)], the property [messageID], and the methods
    [send], [connect] (which sees the client's token through its reference to
    the client) and [disconnect]. *)
Class WebsocketManager (W : Type) : Type := {
  construct : W;
  messageID : W -> Z;
  send : Packet -> W -> W;
  connect : option string -> W -> W;
  disconnect : W -> W
}.

(** [class Room]: the field [id?: string]; its [ws] is the client's. *)
Record Room : Type := mkRoom {
  id : option string
}.

(** [class ClientUser]: its only field is the reference [ws], which is taken
    to be the client's manager, as that of its [Room] is. *)
Inductive ClientUser : Type := mkClientUser.

Section Client.
Context {W : Type} `{WebsocketManager W} {Func : Type}.

(** [class Client extends EventEmitter].  [token] and [user] are declared
    without initialiser and are undefined until assigned. *)
Record Client : Type := mkClient {
  events : list (EventEmitterEvent Func);
  ws : Connection W;
  token : option string;
  user : option ClientUser;
  room : Room;
  handling : Handling
}.

Definition set_ws (w : Connection W) (c : Client) : Client :=
  mkClient (events c) w (token c) (user c) (room c) (handling c).

Definition set_token (t : option string) (c : Client) : Client :=
  mkClient (events c) (ws c) t (user c) (room c) (handling c).

Definition set_room_id (i : option string) (c : Client) : Client :=
  mkClient (events c) (ws c) (token c) (user c) (mkRoom i) (handling c).

(** [this.ws.send(p)]: the manager handles the packet and the call is
    recorded. *)
Definition ws_send (p : Packet) (c : Client) : Client :=
  set_ws (mkConnection (send p (manager (ws c))) (sent (ws c) ++ [p])) c.

(** [this.ws.messageID] *)
Definition ws_messageID (c : Client) : Z := messageID (manager (ws c)).

Definition default_handling : Handling := mkHandling "1" "1" "5" true.

(** [new Client(handling)]; [None] is an omitted (or undefined) argument, for
    which the default parameter value is taken. *)
Definition new_Client (handling : option Handling) : Client :=
  mkClient [] (mkConnection construct []) None None (mkRoom None)
    (match handling with
     | Some h => h
     | None => default_handling
     end).

(** [login(token)] *)
Definition login (t : string) (c : Client) : Client :=
  let c := set_token (Some t) c in
  set_ws (mkConnection (connect (token c) (manager (ws c))) (sent (ws c))) c.

(** [leaveRoom()] *)
Definition leaveRoom (c : Client) : Client :=
  let c := ws_send (mkPacket (Some (ws_messageID c)) "leaveroom" (VBool false)) c in
  set_room_id None c.

(** [joinRoom(room)] up to and including its send (lines 99-103). *)
Definition joinRoom_send (r : string) (c : Client) : Client :=
  let c := if truthy_id (id (room c)) then leaveRoom c else c in
  ws_send (mkPacket (Some (ws_messageID c)) "joinroom" (VStr r)) c.

(** [joinRoom(room)] *)
Definition joinRoom (r : string) (c : Client) : Client :=
  let c := joinRoom_send r c in
  set_room_id (Some r) c.

(** [destroy()] *)
Definition destroy (c : Client) : Client :=
  set_ws (mkConnection (disconnect (manager (ws c))) (sent (ws c))) c.

(** [ClientUser.message(user, message)] *)
Definition ClientUser_message (u msg : string) (c : Client) : Client :=
  ws_send (mkPacket None "social.dm"
             (VObj [("recipient", VStr u); ("msg", VStr msg)])) c.

(** [ClientUser.setPresence(options)] *)
Definition ClientUser_setPresence (options : PresenceOptions) (c : Client) : Client :=
  ws_send (mkPacket None "social.presence" (PresenceOptions_value options)) c.

(** [ClientUser.invite(user)] *)
Definition ClientUser_invite (u : string) (c : Client) : Client :=
  ws_send (mkPacket None "social.invite" (VStr u)) c.

(** [Room.message(msg)] *)
Definition Room_message (msg : string) (c : Client) : Client :=
  ws_send (mkPacket (Some (ws_messageID c)) "chat" (VStr msg)) c.

(** [Room.selfMode(mode)] *)
Definition Room_selfMode (mode : Mode) (c : Client) : Client :=
  ws_send (mkPacket (Some (ws_messageID c)) "switchbracket" (Mode_value mode)) c.

(** [Room.setMode(user, mode)] *)
Definition Room_setMode (u : string) (mode : Mode) (c : Client) : Client :=
  ws_send (mkPacket (Some (ws_messageID c)) "switchbrackethost"
             (VObj [("uid", VStr u); ("bracket", Mode_value mode)])) c.

(** [Room.setConfig(options)] *)
Definition Room_setConfig (options : list ConfigOption) (c : Client) : Client :=
  ws_send (mkPacket (Some (ws_messageID c)) "updateconfig"
             (VArr (map ConfigOption_value options))) c.

(** The methods that the three classes declare, as one type of calls.  The
    methods [on] and [emit] that [Client] inherits are not among them; see
    [Action] for [on]. *)
Inductive Call : Type :=
| CLogin (t : string)
| CJoinRoom (r : string)
| CLeaveRoom
| CDestroy
| CUserMessage (u msg : string)
| CUserSetPresence (options : PresenceOptions)
| CUserInvite (u : string)
| CRoomMessage (msg : string)
| CRoomSelfMode (mode : Mode)
| CRoomSetMode (u : string) (mode : Mode)
| CRoomSetConfig (options : list ConfigOption).

Definition perform (k : Call) (c : Client) : Client :=
  match k with
  | CLogin t => login t c
  | CJoinRoom r => joinRoom r c
  | CLeaveRoom => leaveRoom c
  | CDestroy => destroy c
  | CUserMessage u msg => ClientUser_message u msg c
  | CUserSetPresence options => ClientUser_setPresence options c
  | CUserInvite u => ClientUser_invite u c
  | CRoomMessage msg => Room_message msg c
  | CRoomSelfMode mode => Room_selfMode mode c
  | CRoomSetMode u mode => Room_setMode u mode c
  | CRoomSetConfig options => Room_setConfig options c
  end.

(** A program of calls, run first to last. *)
Definition perform_all (ks : list Call) (c : Client) : Client :=
  fold_left (fun c k => perform k c) ks c.

(** The client state that is not the connection. *)
Definition local_state (c : Client)
  : list (EventEmitterEvent Func) * option string * option ClientUser * Room * Handling :=
  (events c, token c, user c, room c, handling c).
End Client.

Arguments Client : clear implicits.

End Index.

(** ** The later ClientUser class ([join], [leave], [setPresence]) *)

Module ClientUserFile.

(** The members of the client's [ws] that this class uses: the property
    [clientId] and the method [send_packet]. *)
Class WebsocketManager (W : Type) : Type := {
  clientId : W -> Z;
  send_packet : Packet -> W -> W
}.

(** Modelled from the spec: the class [Room] imported from [../room/Room] is
    not among the sources.  The data model gives a room an identifier
    (absent means not in a room) and a membership role (unknown until the
    server confirms it). *)
Record Room : Type := mkRoom {
  id : option string;
  role : option Mode
}.

Section ClientUser.
Context {W : Type} `{WebsocketManager W} {U : Type}.

(** The imported [Client], by the one member used here: [ws], which may be
    undefined (it is reached through [?.]). *)
Record Client : Type := mkClient {
  ws : option (Connection W)
}.

(** [class ClientUser extends User]: [base] is what [User] holds besides
    the reference [client]; [handling] has no initialiser. *)
Record ClientUser : Type := mkClientUser {
  base : U;
  client : Client;
  handling : option Handling;
  room : option Room
}.

(** [this.client.ws?.send_packet(p)], where [p] may read the manager: nothing
    is evaluated or sent when [ws] is undefined. *)
Definition ws_send_packet (p : W -> Packet) (cu : ClientUser) : ClientUser :=
  match ws (client cu) with
  | None => cu
  | Some w =>
      let pkt := p (manager w) in
      mkClientUser (base cu)
        (mkClient (Some (mkConnection (send_packet pkt (manager w)) (sent w ++ [pkt]))))
        (handling cu) (room cu)
  end.

(** [join(room)] *)
Definition join (r : string) (cu : ClientUser) : ClientUser :=
  ws_send_packet (fun m => mkPacket (Some (clientId m)) "joinroom" (VStr r)) cu.

(** [leave()] *)
Definition leave (cu : ClientUser) : ClientUser :=
  ws_send_packet (fun m => mkPacket (Some (clientId m)) "leaveroom" (VBool false)) cu.

(** [setPresence(data)] *)
Definition setPresence (data : JsVal) (cu : ClientUser) : ClientUser :=
  ws_send_packet (fun _ => mkPacket None "social.presence" data) cu.

(** The packets handed to the connection so far; none without a connection. *)
Definition outbound (cu : ClientUser) : list Packet :=
  match ws (client cu) with
  | None => []
  | Some w => sent w
  end.

(** The state of the user object that is not the connection. *)
Definition local_state (cu : ClientUser) : U * option Handling * option Room :=
  (base cu, handling cu, room cu).

Inductive Call : Type :=
| CJoin (r : string)
| CLeave
| CSetPresence (data : JsVal).

Definition perform (k : Call) (cu : ClientUser) : ClientUser :=
  match k with
  | CJoin r => join r cu
  | CLeave => leave cu
  | CSetPresence data => setPresence data cu
  end.

Definition perform_all (ks : list Call) (cu : ClientUser) : ClientUser :=
  fold_left (fun cu k => perform k cu) ks cu.
End ClientUser.

Arguments Client : clear implicits.
Arguments ClientUser : clear implicits.

End ClientUserFile.

(** ** Which commands carry an id on the wire *)

Definition acknowledged_commands : list string :=
  ["joinroom"; "leaveroom"; "chat"; "switchbracket"; "switchbrackethost"; "updateconfig"].

Definition social_commands : list string :=
  ["social.presence"; "social.dm"; "social.invite"].

Definition mem_string (s : string) (l : list string) : bool :=
  existsb (String.eqb s) l.

Definition has_id (p : Packet) : bool :=
  match pk_id p with
  | Some _ => true
  | None => false
  end.

(** A packet of an acknowledged command carries an id, a packet of a social
    command carries none. *)
Definition id_policy (p : Packet) : bool :=
  (implb (mem_string (pk_command p) acknowledged_commands) (has_id p))
  && (implb (mem_string (pk_command p) social_commands) (negb (has_id p))).

(** The nine commands the two files send. *)
Definition known_command (p : Packet) : bool :=
  mem_string (pk_command p) acknowledged_commands
  || mem_string (pk_command p) social_commands.

Definition sendable (p : Packet) : bool := id_policy p && known_command p.

(** ** A manager to run the definitions on *)

(** Modelled from the spec: the connection manager's message-id counter, a
    per-connection integer that starts at a fixed base (0 here), advances
    with every send and is reset by [connect]. *)
#[global] Instance CounterManager : Index.WebsocketManager Z := {
  Index.construct := 0;
  Index.messageID := fun w => w;
  Index.send := fun _ w => w + 1;
  Index.connect := fun _ _ => 0;
  Index.disconnect := fun w => w
}.

#[global] Instance CounterSocket : ClientUserFile.WebsocketManager Z := {
  ClientUserFile.clientId := fun w => w;
  ClientUserFile.send_packet := fun _ w => w + 1
}.

(** A client of index.ts that is in room ["A"]. *)
Definition client_in_A : Index.Client Z nat :=
  Index.joinRoom "A" (Index.new_Client None).

(** A connected user object of the later class that is in room ["A"]. *)
Definition user_in_A : ClientUserFile.ClientUser Z unit :=
  ClientUserFile.mkClientUser tt
    (ClientUserFile.mkClient (Some (mkConnection 0 [])))
    None
    (Some (ClientUserFile.mkRoom (Some "A") (Some player))).

(** The same user object before its client has a connection. *)
Definition user_offline : ClientUserFile.ClientUser Z unit :=
  ClientUserFile.mkClientUser tt (ClientUserFile.mkClient None) None None.

(** ** Callbacks that subscribe while an event is emitted *)

Section Reentrant.
Context {Func : Type}.
(** [registers f args]: the subscriptions that callback [f], called with
    [args], makes on the emitter it is called from (its calls of [on], in
    order).  Other effects of callbacks are not followed. *)
Variable registers : Func -> list JsVal -> list (string * Func).

(** [emit(event, args)] with such callbacks: [array] is built once by
    [filter], then [forEach] calls its elements while [this.events] grows.
    The result is the calls made and the registrations afterwards. *)
Definition emit_run (ev : string) (args : JsVal) (events : list (EventEmitterEvent Func))
  : list (Invocation Func) * list (EventEmitterEvent Func) :=
  let array := filter (fun x => String.eqb (event x) ev) events in
  fold_left
    (fun st element =>
       let i := invoke args element in
       (fst st ++ [i], on_all (registers (callee i) (arguments i)) (snd st)))
    array ([], events).
End Reentrant.

(** ** Reading a sequence of calls and a sequence of packets *)

(** [Room.id] after one call of index.ts, from [Room.id] before it. *)
Definition room_after (k : Index.Call) (i : option string) : option string :=
  match k with
  | Index.CJoinRoom r => Some r
  | Index.CLeaveRoom => None
  | _ => i
  end.

(** The token after one call of index.ts, from the token before it. *)
Definition token_after (k : Index.Call) (t : option string) : option string :=
  match k with
  | Index.CLogin t' => Some t'
  | _ => t
  end.

(** [client.on(event, func)]: the [on] that [Client] inherits from
    [EventEmitter] pushes on the client's own [events]. *)
Definition Client_on {W Func : Type} (ev : string) (f : Func)
  (c : Index.Client W Func) : Index.Client W Func :=
  Index.mkClient (on ev f (Index.events c)) (Index.ws c) (Index.token c)
    (Index.user c) (Index.room c) (Index.handling c).

(** What a caller does with a client: one of the declared methods, or a
    subscription through the inherited [on].  ([emit] runs callbacks, which
    are caller code, and is not an action here.) *)
Inductive Action (Func : Type) : Type :=
| ACall (k : Index.Call)
| AOn (ev : string) (f : Func).
Arguments ACall {Func} _.
Arguments AOn {Func} _ _.

Definition act {W : Type} `{Index.WebsocketManager W} {Func : Type}
  (a : Action Func) (c : Index.Client W Func) : Index.Client W Func :=
  match a with
  | ACall k => Index.perform k c
  | AOn ev f => Client_on ev f c
  end.

(** A program of actions, run first to last. *)
Definition act_all {W : Type} `{Index.WebsocketManager W} {Func : Type}
  (acts : list (Action Func)) (c : Index.Client W Func) : Index.Client W Func :=
  fold_left (fun c a => act a c) acts c.

(** The subscriptions among the actions, in order. *)
Definition registrations_of {Func : Type} (acts : list (Action Func))
  : list (string * Func) :=
  flat_map (fun a => match a with
                     | AOn ev f => [(ev, f)]
                     | ACall _ => []
                     end) acts.

(** The method calls among the actions, in order. *)
Definition calls_of {Func : Type} (acts : list (Action Func)) : list Index.Call :=
  flat_map (fun a => match a with
                     | ACall k => [k]
                     | AOn _ _ => []
                     end) acts.

(** No call joins the room whose id is the empty string. *)
Definition nonempty_joins (ks : list Index.Call) : bool :=
  forallb (fun k => match k with
                    | Index.CJoinRoom r => negb (String.eqb r "")
                    | _ => true
                    end) ks.

(** No call is [login] or [destroy], the two that reach the manager other
    than through [send]. *)
Definition only_sends (ks : list Index.Call) : bool :=
  forallb (fun k => match k with
                    | Index.CLogin _ | Index.CDestroy => false
                    | _ => true
                    end) ks.

(** Membership as a server sees it from the packets: [in_room] tells whether
    a join is in force; a joinroom while one is in force is refused
    ([None]), a leaveroom ends it, other packets leave it as it is. *)
Fixpoint alternates (in_room : bool) (ps : list Packet) : option bool :=
  match ps with
  | [] => Some in_room
  | p :: ps =>
      if String.eqb (pk_command p) "joinroom" then
        if in_room then None else alternates true ps
      else if String.eqb (pk_command p) "leaveroom" then alternates false ps
      else alternates in_room ps
  end.

Section Stamps.
Context {W : Type}.
(** How a manager exposes its counter and handles a packet. *)
Variable read : W -> Z.
Variable handle : Packet -> W -> W.

(** The manager after it handled the packets [ps], first to last. *)
Definition replay (m : W) (ps : list Packet) : W :=
  fold_left (fun m p => handle p m) ps m.

(** Every id in [ps] is the counter the manager showed when that packet
    was handed to it, the manager starting as [m]. *)
Fixpoint stamped (m : W) (ps : list Packet) : bool :=
  match ps with
  | [] => true
  | p :: ps =>
      match pk_id p with
      | None => true
      | Some i => i =? read m
      end && stamped (handle p m) ps
  end.
End Stamps.

(** The commands of the packets one call of index.ts sends, given [Room.id]
    before the call. *)
Definition commands_of_call (i : option string) (k : Index.Call) : list string :=
  match k with
  | Index.CLogin _ | Index.CDestroy => []
  | Index.CJoinRoom _ =>
      if truthy_id i then ["leaveroom"; "joinroom"] else ["joinroom"]
  | Index.CLeaveRoom => ["leaveroom"]
  | Index.CUserMessage _ _ => ["social.dm"]
  | Index.CUserSetPresence _ => ["social.presence"]
  | Index.CUserInvite _ => ["social.invite"]
  | Index.CRoomMessage _ => ["chat"]
  | Index.CRoomSelfMode _ => ["switchbracket"]
  | Index.CRoomSetMode _ _ => ["switchbrackethost"]
  | Index.CRoomSetConfig _ => ["updateconfig"]
  end.

(** The commands a sequence of calls sends, [Room.id] being [i] at first. *)
Fixpoint commands_sent (i : option string) (ks : list Index.Call) : list string :=
  match ks with
  | [] => []
  | k :: ks => commands_of_call i k ++ commands_sent (room_after k i) ks
  end.

(** The command of the packet a call of the later class sends. *)
Definition command_of (k : ClientUserFile.Call) : string :=
  match k with
  | ClientUserFile.CJoin _ => "joinroom"
  | ClientUserFile.CLeave => "leaveroom"
  | ClientUserFile.CSetPresence _ => "social.presence"
  end.

(** A client of index.ts whose [Room.id] is the empty string. *)
Definition client_in_empty : Index.Client Z nat :=
  Index.joinRoom "" (Index.new_Client None).

(** * Properties *)

(** ** The event emitter *)

Lemma on_all_app (Func : Type) (regs : list (string * Func))
  (events : list (EventEmitterEvent Func)) :
  on_all regs events = events ++ map (fun r => mkEvent (fst r) (snd r)) regs.
Proof.
  unfold on_all. revert events.
  induction regs as [|r regs IH]; intros events; simpl.
  - now rewrite app_nil_r.
  - rewrite IH. unfold on. now rewrite <- app_assoc.
Qed.

Lemma emit_app (Func : Type) (ev : string) (args : JsVal)
  (xs ys : list (EventEmitterEvent Func)) :
  emit ev args (xs ++ ys) = emit ev args xs ++ emit ev args ys.
Proof.
  unfold emit. now rewrite filter_app, map_app.
Qed.

Lemma emit_registered (Func : Type) (ev : string) (args : JsVal)
  (regs : list (string * Func)) :
  emit ev args (map (fun r => mkEvent (fst r) (snd r)) regs)
  = map (fun f => invoke args (mkEvent ev f)) (subscribers ev regs).
Proof.
  unfold emit, subscribers.
  induction regs as [|[e f] regs IH]; simpl; [reflexivity|].
  destruct (String.eqb e ev); simpl; now rewrite IH.
Qed.

(** C5. Emitting an event calls exactly the callbacks subscribed to that
    event name, within the emit, in the order of their registration: after
    any sequence [regs] of registrations on a new emitter, the calls made by
    [emit ev args] are the subscribers of [ev] in [regs], first registered
    first.  Nothing is deduplicated: registering [f] twice for [ev] adds two
    calls of [f] to every emit of [ev]. *)
Theorem emit_calls_subscribers_in_registration_order :
  forall (Func : Type) (regs : list (string * Func)) (ev : string) (args : JsVal)
         (f : Func) (events : list (EventEmitterEvent Func)),
    emit ev args (on_all regs []) =
      map (fun g => invoke args (mkEvent ev g)) (subscribers ev regs)
    /\ map callee (emit ev args (on_all regs [])) = subscribers ev regs
    /\ emit ev args (on ev f (on ev f events)) =
         emit ev args events
           ++ [invoke args (mkEvent ev f); invoke args (mkEvent ev f)].
Proof.
  intros Func regs ev args f events.
  assert (E : emit ev args (on_all regs []) =
              map (fun g => invoke args (mkEvent ev g)) (subscribers ev regs)).
  { rewrite on_all_app. simpl. apply emit_registered. }
  split; [exact E|]. split.
  - rewrite E, map_map. unfold invoke.
    rewrite <- (map_id (subscribers ev regs)) at 2.
    apply map_ext. intros g. now destruct (truthy args).
  - unfold on. rewrite !emit_app. unfold emit. simpl.
    rewrite String.eqb_refl. simpl. now rewrite <- app_assoc.
Qed.

(** C9. A falsy [args] is not passed on: the subscribers are called with no
    argument at all, exactly as by an emit without payload; [false], [0] and
    the empty string are such values.  A truthy [args] is passed as the one
    argument of every call. *)
Theorem emit_passes_args_only_when_truthy :
  forall (Func : Type) (events : list (EventEmitterEvent Func)) (ev : string)
         (args : JsVal),
    let subs := map func (filter (fun x => String.eqb (event x) ev) events) in
    emit ev VUndefined events = map (fun g => mkInvocation g []) subs
    /\ emit ev args events =
         (if truthy args then map (fun g => mkInvocation g [args]) subs
          else emit ev VUndefined events)
    /\ truthy (VBool false) = false
    /\ truthy (VNum 0) = false
    /\ truthy (VStr "") = false.
Proof.
  intros Func events ev args subs. subst subs.
  unfold emit, invoke. simpl. rewrite !map_map.
  repeat split.
  destruct (truthy args); reflexivity.
Qed.

Lemma forallb_sendable (l : list Packet) :
  forallb sendable l = true ->
  forallb id_policy l = true /\ forallb known_command l = true.
Proof.
  induction l as [|p l IH]; simpl; [now split|].
  unfold sendable at 1.
  intros E. apply andb_true_iff in E. destruct E as [E1 E2].
  apply andb_true_iff in E1. destruct E1 as [P K].
  destruct (IH E2) as [IP IK].
  now rewrite P, K, IP, IK.
Qed.

(** ** index.ts: sends and local state *)

Section IndexFacts.
Context {W : Type} `{Index.WebsocketManager W} {Func : Type}.
Implicit Types c : Index.Client W Func.

Lemma sent_ws_send p c :
  sent (Index.ws (Index.ws_send p c)) = sent (Index.ws c) ++ [p].
Proof. reflexivity. Qed.

Lemma local_ws_send p c :
  Index.local_state (Index.ws_send p c) = Index.local_state c.
Proof. reflexivity. Qed.

Lemma sent_leaveRoom c :
  sent (Index.ws (Index.leaveRoom c)) =
    sent (Index.ws c)
      ++ [mkPacket (Some (Index.ws_messageID c)) "leaveroom" (VBool false)].
Proof. reflexivity. Qed.

(** What one call hands to the connection. *)
Lemma perform_sends (k : Index.Call) c :
  exists new,
    sent (Index.ws (Index.perform k c)) = sent (Index.ws c) ++ new
    /\ forallb sendable new = true.
Proof.
  destruct k; simpl;
    try (eexists [_]; split; [reflexivity | reflexivity]);
    try (exists []; split; [now rewrite app_nil_r | reflexivity]).
  unfold Index.joinRoom, Index.joinRoom_send.
  destruct (truthy_id (Index.id (Index.room c))).
  - eexists [_; _]. split; [simpl; now rewrite <- app_assoc | reflexivity].
  - eexists [_]. split; reflexivity.
Qed.

Lemma perform_all_sends (ks : list Index.Call) c :
  exists new,
    sent (Index.ws (Index.perform_all ks c)) = sent (Index.ws c) ++ new
    /\ forallb sendable new = true.
Proof.
  unfold Index.perform_all. revert c.
  induction ks as [|k ks IH]; intros c; simpl.
  - exists []. split; [now rewrite app_nil_r | reflexivity].
  - destruct (IH (Index.perform k c)) as (n2 & E2 & P2).
    destruct (perform_sends k c) as (n1 & E1 & P1).
    exists (n1 ++ n2). split.
    + now rewrite E2, E1, <- app_assoc.
    + now rewrite forallb_app, P1, P2.
Qed.
End IndexFacts.

(** ** The later ClientUser class: sends and local state *)

Section ClientUserFacts.
Context {W : Type} `{ClientUserFile.WebsocketManager W} {U : Type}.
Implicit Types cu : ClientUserFile.ClientUser W U.

Lemma local_ws_send_packet (p : W -> Packet) cu :
  ClientUserFile.local_state (ClientUserFile.ws_send_packet p cu)
  = ClientUserFile.local_state cu.
Proof.
  unfold ClientUserFile.ws_send_packet.
  now destruct (ClientUserFile.ws (ClientUserFile.client cu)).
Qed.

Lemma outbound_ws_send_packet (p : W -> Packet) cu :
  ClientUserFile.outbound (ClientUserFile.ws_send_packet p cu) =
    match ClientUserFile.ws (ClientUserFile.client cu) with
    | None => []
    | Some w => sent w ++ [p (manager w)]
    end.
Proof.
  unfold ClientUserFile.outbound, ClientUserFile.ws_send_packet.
  destruct (ClientUserFile.ws (ClientUserFile.client cu)) eqn:E; simpl.
  - reflexivity.
  - now rewrite E.
Qed.

Lemma user_perform_sends (k : ClientUserFile.Call) cu :
  exists new,
    ClientUserFile.outbound (ClientUserFile.perform k cu)
    = ClientUserFile.outbound cu ++ new
    /\ forallb sendable new = true.
Proof.
  destruct k; simpl;
    unfold ClientUserFile.join, ClientUserFile.leave, ClientUserFile.setPresence;
    rewrite outbound_ws_send_packet; unfold ClientUserFile.outbound;
    destruct (ClientUserFile.ws (ClientUserFile.client cu));
    try (eexists [_]; split; reflexivity);
    try (exists []; split; reflexivity).
Qed.

Lemma user_perform_all_sends (ks : list ClientUserFile.Call) cu :
  exists new,
    ClientUserFile.outbound (ClientUserFile.perform_all ks cu)
    = ClientUserFile.outbound cu ++ new
    /\ forallb sendable new = true.
Proof.
  unfold ClientUserFile.perform_all. revert cu.
  induction ks as [|k ks IH]; intros cu; simpl.
  - exists []. split; [now rewrite app_nil_r | reflexivity].
  - destruct (IH (ClientUserFile.perform k cu)) as (n2 & E2 & P2).
    destruct (user_perform_sends k cu) as (n1 & E1 & P1).
    exists (n1 ++ n2). split.
    + now rewrite E2, E1, <- app_assoc.
    + now rewrite forallb_app, P1, P2.
Qed.
End ClientUserFacts.

(** ** Joining and leaving *)

(** C1 does not hold of [join] of the later class: called on a connected
    user that is in room ["A"], [join "B"] hands the connection one packet, the
    joinroom, and no leaveroom before it. *)
Lemma join_sends_no_leaveroom :
  option_map ClientUserFile.id (ClientUserFile.room user_in_A) = Some (Some "A")
  /\ ClientUserFile.outbound (ClientUserFile.join "B" user_in_A)
     = ClientUserFile.outbound user_in_A ++ [mkPacket (Some 0) "joinroom" (VStr "B")]
  /\ ~ (exists p q,
          ClientUserFile.outbound (ClientUserFile.join "B" user_in_A)
          = ClientUserFile.outbound user_in_A ++ [p; q]
          /\ pk_command p = "leaveroom" /\ pk_command q = "joinroom").
Proof.
  split; [reflexivity|]. split; [reflexivity|].
  intros (p & q & E & _). discriminate E.
Qed.

(** C1, amended. [Client.joinRoom(b)] called while [Room.id] is a non-empty
    string hands the connection exactly two packets: a leaveroom carrying the
    message id read before it, then the joinroom for [b] carrying the message
    id read after the leaveroom was sent.  [join(b)] of the later class makes
    no implicit leave: it hands over the joinroom alone, and nothing when the
    client has no connection. *)
Theorem joinRoom_leaves_first_join_does_not :
  forall (W : Type) (M : Index.WebsocketManager W) (Func : Type)
         (c : Index.Client W Func) (a b : string)
         (W' : Type) (M' : ClientUserFile.WebsocketManager W') (U : Type)
         (cu : ClientUserFile.ClientUser W' U),
    Index.id (Index.room c) = Some a ->
    a <> "" ->
    sent (Index.ws (Index.joinRoom b c)) =
      sent (Index.ws c)
        ++ [mkPacket (Some (Index.ws_messageID c)) "leaveroom" (VBool false);
            mkPacket (Some (Index.ws_messageID (Index.leaveRoom c))) "joinroom" (VStr b)]
    /\ ClientUserFile.outbound (ClientUserFile.join b cu) =
         match ClientUserFile.ws (ClientUserFile.client cu) with
         | None => []
         | Some w =>
             sent w ++ [mkPacket (Some (ClientUserFile.clientId (manager w)))
                          "joinroom" (VStr b)]
         end.
Proof.
  intros W M Func c a b W' M' U cu Hid Hne. split.
  - unfold Index.joinRoom, Index.joinRoom_send.
    rewrite Hid. simpl.
    destruct (String.eqb_spec a "") as [E|_]; [contradiction|].
    simpl. now rewrite <- app_assoc.
  - unfold ClientUserFile.join. now rewrite outbound_ws_send_packet.
Qed.

Lemma joinRoom_leaves_first_join_does_not_witness :
  sent (Index.ws (Index.joinRoom "B" client_in_A)) =
    [mkPacket (Some 0) "joinroom" (VStr "A");
     mkPacket (Some 1) "leaveroom" (VBool false);
     mkPacket (Some 2) "joinroom" (VStr "B")]
  /\ ClientUserFile.outbound (ClientUserFile.join "B" user_in_A) =
       [mkPacket (Some 0) "joinroom" (VStr "B")].
Proof.
  apply (joinRoom_leaves_first_join_does_not
           Z CounterManager nat client_in_A "A" "B" Z CounterSocket unit user_in_A).
  - reflexivity.
  - discriminate.
Defined.

(** C2 does not hold of [Client.joinRoom]: on a new client, whose [Room.id]
    is unset, [joinRoom "R1"] returns with [Room.id] already ["R1"], although
    no packet from the server was handled. *)
Lemma joinRoom_sets_id_without_ack :
  Index.id (Index.room (@Index.new_Client Z CounterManager nat None)) = None
  /\ Index.id (Index.room (Index.joinRoom "R1" (@Index.new_Client Z CounterManager nat None)))
     = Some "R1"
  /\ Index.id (Index.room (Index.joinRoom "R1" (@Index.new_Client Z CounterManager nat None)))
     <> Index.id (Index.room (@Index.new_Client Z CounterManager nat None)).
Proof.
  split; [reflexivity|]. split; [reflexivity|]. discriminate.
Qed.

(** C2, amended. [join(roomId)] of the later class sends the joinroom when
    its client has a connection (and nothing otherwise) and changes nothing
    of the user's local state, its room included.
    [Client.joinRoom(roomId)] sends the joinroom as the last packet while
    [Room.id] is not yet assigned (it is unset if a room was just left, and
    otherwise still what it was), and assigns [roomId] to [Room.id] right
    after that send, before it returns. *)
Theorem join_keeps_room_joinRoom_assigns_after_send :
  forall (W : Type) (M : Index.WebsocketManager W) (Func : Type)
         (c : Index.Client W Func) (r : string)
         (W' : Type) (M' : ClientUserFile.WebsocketManager W') (U : Type)
         (cu : ClientUserFile.ClientUser W' U),
    ClientUserFile.local_state (ClientUserFile.join r cu) = ClientUserFile.local_state cu
    /\ ClientUserFile.outbound (ClientUserFile.join r cu) =
         match ClientUserFile.ws (ClientUserFile.client cu) with
         | None => []
         | Some w =>
             sent w ++ [mkPacket (Some (ClientUserFile.clientId (manager w)))
                          "joinroom" (VStr r)]
         end
    /\ (exists before i,
          sent (Index.ws (Index.joinRoom_send r c))
          = before ++ [mkPacket (Some i) "joinroom" (VStr r)])
    /\ Index.id (Index.room (Index.joinRoom_send r c)) =
         (if truthy_id (Index.id (Index.room c)) then None
          else Index.id (Index.room c))
    /\ sent (Index.ws (Index.joinRoom r c)) = sent (Index.ws (Index.joinRoom_send r c))
    /\ Index.id (Index.room (Index.joinRoom r c)) = Some r.
Proof.
  intros W M Func c r W' M' U cu.
  split; [apply local_ws_send_packet|].
  split; [unfold ClientUserFile.join; now rewrite outbound_ws_send_packet|].
  split; [eexists; eexists; reflexivity|].
  split; [|split; reflexivity].
  unfold Index.joinRoom_send.
  now destruct (truthy_id (Index.id (Index.room c))).
Qed.

(** C3 does not hold of [Client.leaveRoom]: called on a client in room
    ["A"], it returns with [Room.id] already cleared, although no packet from
    the server was handled. *)
Lemma leaveRoom_clears_id_without_ack :
  Index.id (Index.room client_in_A) = Some "A"
  /\ Index.id (Index.room (Index.leaveRoom client_in_A)) = None
  /\ Index.id (Index.room (Index.leaveRoom client_in_A))
     <> Index.id (Index.room client_in_A).
Proof.
  split; [reflexivity|]. split; [reflexivity|]. discriminate.
Qed.

(** C3, amended. [leave()] of the later class sends the leaveroom when the
    client has a connection (and nothing otherwise) and changes nothing of the
    user's local state, its room included.  [Client.leaveRoom()] sends the
    leaveroom and clears [Room.id] right after the send, before it returns. *)
Theorem leave_keeps_room_leaveRoom_clears_after_send :
  forall (W : Type) (M : Index.WebsocketManager W) (Func : Type)
         (c : Index.Client W Func)
         (W' : Type) (M' : ClientUserFile.WebsocketManager W') (U : Type)
         (cu : ClientUserFile.ClientUser W' U),
    ClientUserFile.local_state (ClientUserFile.leave cu) = ClientUserFile.local_state cu
    /\ ClientUserFile.outbound (ClientUserFile.leave cu) =
         match ClientUserFile.ws (ClientUserFile.client cu) with
         | None => []
         | Some w =>
             sent w ++ [mkPacket (Some (ClientUserFile.clientId (manager w)))
                          "leaveroom" (VBool false)]
         end
    /\ sent (Index.ws (Index.leaveRoom c)) =
         sent (Index.ws c)
           ++ [mkPacket (Some (Index.ws_messageID c)) "leaveroom" (VBool false)]
    /\ Index.id (Index.room (Index.leaveRoom c)) = None.
Proof.
  intros W M Func c W' M' U cu.
  split; [apply local_ws_send_packet|].
  split; [unfold ClientUserFile.leave; now rewrite outbound_ws_send_packet|].
  split; reflexivity.
Qed.

(** C10. [Client.leaveRoom()] has no guard: in every client state, also one
    whose [Room.id] is unset, it hands the connection exactly one leaveroom
    packet and leaves [Room.id] unset; a second call straight after leaves
    the local state as the first call left it. *)
Theorem leaveRoom_unguarded_idempotent :
  forall (W : Type) (M : Index.WebsocketManager W) (Func : Type)
         (c : Index.Client W Func),
    sent (Index.ws (Index.leaveRoom c)) =
      sent (Index.ws c)
        ++ [mkPacket (Some (Index.ws_messageID c)) "leaveroom" (VBool false)]
    /\ Index.id (Index.room (Index.leaveRoom c)) = None
    /\ Index.local_state (Index.leaveRoom (Index.leaveRoom c))
       = Index.local_state (Index.leaveRoom c).
Proof.
  intros W M Func c. repeat split.
Qed.

(** ** Room and user actions *)

(** C4 does not hold: [Room.message] has no check of [Room.id].  Called on a
    new client, whose [Room.id] is unset, it returns normally after handing
    the chat packet to the connection. *)
Lemma Room_message_sends_when_not_in_room :
  Index.id (Index.room (@Index.new_Client Z CounterManager nat None)) = None
  /\ sent (Index.ws (Index.Room_message "hi" (@Index.new_Client Z CounterManager nat None)))
     = [mkPacket (Some 0) "chat" (VStr "hi")]
  /\ sent (Index.ws (Index.Room_message "hi" (@Index.new_Client Z CounterManager nat None)))
     <> sent (Index.ws (@Index.new_Client Z CounterManager nat None)).
Proof.
  split; [reflexivity|]. split; [reflexivity|]. discriminate.
Qed.

(** C4, amended. [Room.message(content)] hands the connection exactly one
    chat packet, carrying the current message id and [content], in every
    state, whether [Room.id] is set or not, and changes no local state. *)
Theorem Room_message_always_sends_chat :
  forall (W : Type) (M : Index.WebsocketManager W) (Func : Type)
         (c : Index.Client W Func) (content : string),
    sent (Index.ws (Index.Room_message content c)) =
      sent (Index.ws c)
        ++ [mkPacket (Some (Index.ws_messageID c)) "chat" (VStr content)]
    /\ Index.local_state (Index.Room_message content c) = Index.local_state c.
Proof.
  intros W M Func c content. split; reflexivity.
Qed.

(** C6. Whatever calls are made on a client of index.ts or on a user object
    of the later class, every packet they hand to the connection follows the
    id policy: a joinroom, leaveroom, chat, switchbracket, switchbrackethost
    or updateconfig packet carries an id (an integer), and a
    social.presence, social.dm or social.invite packet carries none; and no
    packet of another command is sent. *)
Theorem outbound_packets_follow_id_policy :
  forall (W : Type) (M : Index.WebsocketManager W) (Func : Type)
         (c : Index.Client W Func) (ks : list Index.Call)
         (W' : Type) (M' : ClientUserFile.WebsocketManager W') (U : Type)
         (cu : ClientUserFile.ClientUser W' U) (ks' : list ClientUserFile.Call),
    (exists new,
        sent (Index.ws (Index.perform_all ks c)) = sent (Index.ws c) ++ new
        /\ forallb id_policy new = true
        /\ forallb known_command new = true)
    /\ (exists new,
          ClientUserFile.outbound (ClientUserFile.perform_all ks' cu)
          = ClientUserFile.outbound cu ++ new
          /\ forallb id_policy new = true
          /\ forallb known_command new = true).
Proof.
  intros W M Func c ks W' M' U cu ks'. split.
  - destruct (perform_all_sends ks c) as (new & E & P).
    exists new. split; [exact E | now apply forallb_sendable].
  - destruct (user_perform_all_sends ks' cu) as (new & E & P).
    exists new. split; [exact E | now apply forallb_sendable].
Qed.

(** C7. A [Client] constructed without a handling argument has the handling
    [{arr: "1", das: "1", sdf: "5", safelock: true}]; a handling that is
    given is kept as it is. *)
Theorem new_Client_default_handling :
  forall (W : Type) (M : Index.WebsocketManager W) (Func : Type) (h : Handling),
    Index.handling (@Index.new_Client W M Func None) = mkHandling "1" "1" "5" true
    /\ Index.handling (@Index.new_Client W M Func (Some h)) = h.
Proof.
  intros W M Func h. split; reflexivity.
Qed.

(** C8 does not hold of [setPresence] of the later class in every state:
    while its client has no connection, the call sends nothing. *)
Lemma setPresence_sends_nothing_offline :
  ClientUserFile.ws (ClientUserFile.client user_offline) = None
  /\ ClientUserFile.outbound
       (ClientUserFile.setPresence (PresenceOptions_value (mkPresence online "menus"))
          user_offline) = []
  /\ ~ (exists p,
          In p (ClientUserFile.outbound
                  (ClientUserFile.setPresence
                     (PresenceOptions_value (mkPresence online "menus")) user_offline))
          /\ pk_command p = "social.presence").
Proof.
  split; [reflexivity|]. split; [reflexivity|].
  intros (p & Hin & _). exact Hin.
Qed.

(** C8, amended. In every client state, [ClientUser.message], [invite] and
    [setPresence] of index.ts each hand the connection exactly one packet,
    the id-less social.dm, social.invite or social.presence with the given
    data, and change no local state (subscriptions, token, user, room,
    handling).  [setPresence] of the later class changes no local state
    either; it hands over the social.presence packet when its client has a
    connection, and nothing otherwise. *)
Theorem social_calls_send_and_keep_local_state :
  forall (W : Type) (M : Index.WebsocketManager W) (Func : Type)
         (c : Index.Client W Func) (recipient content u : string)
         (options : PresenceOptions)
         (W' : Type) (M' : ClientUserFile.WebsocketManager W') (U : Type)
         (cu : ClientUserFile.ClientUser W' U) (data : JsVal),
    (sent (Index.ws (Index.ClientUser_message recipient content c)) =
       sent (Index.ws c)
         ++ [mkPacket None "social.dm"
               (VObj [("recipient", VStr recipient); ("msg", VStr content)])]
     /\ Index.local_state (Index.ClientUser_message recipient content c)
        = Index.local_state c)
    /\ (sent (Index.ws (Index.ClientUser_invite u c)) =
          sent (Index.ws c) ++ [mkPacket None "social.invite" (VStr u)]
        /\ Index.local_state (Index.ClientUser_invite u c) = Index.local_state c)
    /\ (sent (Index.ws (Index.ClientUser_setPresence options c)) =
          sent (Index.ws c)
            ++ [mkPacket None "social.presence" (PresenceOptions_value options)]
        /\ Index.local_state (Index.ClientUser_setPresence options c)
           = Index.local_state c)
    /\ (ClientUserFile.outbound (ClientUserFile.setPresence data cu) =
          match ClientUserFile.ws (ClientUserFile.client cu) with
          | None => []
          | Some w => sent w ++ [mkPacket None "social.presence" data]
          end
        /\ ClientUserFile.local_state (ClientUserFile.setPresence data cu)
           = ClientUserFile.local_state cu).
Proof.
  intros W M Func c recipient content u options W' M' U cu data.
  repeat split.
  - unfold ClientUserFile.setPresence. now rewrite outbound_ws_send_packet.
  - apply local_ws_send_packet.
Qed.

(** * Further properties *)

(** ** The event emitter *)

(** X1. One more subscription changes an emit only at its end: after
    [on ev' f], an emit of [ev] makes the calls it made before, followed by
    one call of [f] when [ev'] is [ev], and by nothing when it is another
    event name. *)
Theorem emit_after_on :
  forall (Func : Type) (ev ev' : string) (args : JsVal) (f : Func)
         (events : list (EventEmitterEvent Func)),
    emit ev args (on ev' f events) =
      emit ev args events
        ++ (if String.eqb ev' ev then [invoke args (mkEvent ev' f)] else []).
Proof.
  intros Func ev ev' args f events.
  unfold on. rewrite emit_app. unfold emit at 2. simpl.
  now destruct (String.eqb ev' ev).
Qed.

(** X2. Emitting an event that has no subscriber calls nothing, whatever
    is subscribed to other events; a new emitter is the case of no
    registration at all. *)
Theorem emit_without_subscriber :
  forall (Func : Type) (regs : list (string * Func)) (ev : string) (args : JsVal),
    Forall (fun r => fst r <> ev) regs ->
    emit ev args (on_all regs []) = [].
Proof.
  intros Func regs ev args Hregs.
  rewrite on_all_app. simpl. rewrite emit_registered.
  unfold subscribers.
  induction Hregs as [|r regs Hr _ IH]; simpl; [reflexivity|].
  destruct (String.eqb_spec (fst r) ev) as [E|_]; [contradiction | exact IH].
Qed.

Lemma emit_without_subscriber_witness :
  emit "ready" (VStr "x") (on_all [("message", 1%nat); ("social_dm", 2%nat)] []) = [].
Proof.
  apply (emit_without_subscriber nat [("message", 1%nat); ("social_dm", 2%nat)]
           "ready" (VStr "x")).
  repeat constructor; discriminate.
Defined.

(** X3. The payload decides how a subscriber is called, never which ones
    are: two emits of one event call the same callbacks in the same order
    whatever their [args], and every call passes at most one argument. *)
Theorem emit_callees_independent_of_args :
  forall (Func : Type) (events : list (EventEmitterEvent Func)) (ev : string)
         (a b : JsVal),
    map callee (emit ev a events) = map callee (emit ev b events)
    /\ Forall (fun i => (length (arguments i) <= 1)%nat) (emit ev a events).
Proof.
  intros Func events ev a b. unfold emit, invoke. split.
  - rewrite !map_map. apply map_ext. intros x.
    now destruct (truthy a), (truthy b).
  - apply Forall_forall. intros i Hi.
    apply in_map_iff in Hi. destruct Hi as (x & <- & _).
    destruct (truthy a); simpl; lia.
Qed.

Lemma emit_run_fold (Func : Type) (registers : Func -> list JsVal -> list (string * Func))
  (args : JsVal) (array : list (EventEmitterEvent Func))
  (calls : list (Invocation Func)) (events : list (EventEmitterEvent Func)) :
  fold_left
    (fun st element =>
       let i := invoke args element in
       (fst st ++ [i], on_all (registers (callee i) (arguments i)) (snd st)))
    array (calls, events)
  = (calls ++ map (invoke args) array,
     on_all (flat_map (fun i => registers (callee i) (arguments i))
               (map (invoke args) array)) events).
Proof.
  revert calls events.
  induction array as [|x array IH]; intros calls events; simpl.
  - now rewrite app_nil_r.
  - rewrite IH. simpl. rewrite <- app_assoc. simpl. f_equal.
    unfold on_all. now rewrite fold_left_app.
Qed.

(** X4. The subscribers an emit calls are fixed when it starts: with
    callbacks that subscribe further callbacks while they run, [emit] makes
    the calls it would make if they did not, so a callback subscribed during
    an emit is not called by that emit; all these subscriptions are in
    place, in the order they were made, when the emit returns. *)
Theorem emit_calls_fixed_at_start :
  forall (Func : Type) (registers : Func -> list JsVal -> list (string * Func))
         (ev : string) (args : JsVal) (events : list (EventEmitterEvent Func)),
    fst (emit_run registers ev args events) = emit ev args events
    /\ snd (emit_run registers ev args events) =
         on_all (flat_map (fun i => registers (callee i) (arguments i))
                   (emit ev args events)) events.
Proof.
  intros Func registers ev args events.
  unfold emit_run. rewrite emit_run_fold. split; reflexivity.
Qed.

(** ** index.ts: joining, leaving and sequences of calls *)

(** X5. The implicit leave of [joinRoom] tests the truthiness of
    [Room.id]: when [Room.id] is unset, and also when it is the empty
    string, [joinRoom(r)] hands the connection the joinroom packet alone,
    with no leaveroom before it, and [Room.id] is [r] afterwards. *)
Theorem joinRoom_without_room_sends_joinroom_only :
  forall (W : Type) (M : Index.WebsocketManager W) (Func : Type)
         (c : Index.Client W Func) (r : string),
    Index.id (Index.room c) = None \/ Index.id (Index.room c) = Some "" ->
    sent (Index.ws (Index.joinRoom r c)) =
      sent (Index.ws c)
        ++ [mkPacket (Some (Index.ws_messageID c)) "joinroom" (VStr r)]
    /\ Index.id (Index.room (Index.joinRoom r c)) = Some r.
Proof.
  intros W M Func c r Hid.
  unfold Index.joinRoom, Index.joinRoom_send.
  destruct Hid as [E|E]; rewrite E; simpl; split; reflexivity.
Qed.

Lemma joinRoom_without_room_sends_joinroom_only_witness :
  sent (Index.ws (Index.joinRoom "B" client_in_empty)) =
    [mkPacket (Some 0) "joinroom" (VStr ""); mkPacket (Some 1) "joinroom" (VStr "B")]
  /\ Index.id (Index.room (Index.joinRoom "B" client_in_empty)) = Some "B".
Proof.
  apply (joinRoom_without_room_sends_joinroom_only
           Z CounterManager nat client_in_empty "B").
  right. reflexivity.
Defined.

(** X6. For a client in a room (a non-empty [Room.id]), [joinRoom(r)] is
    [leaveRoom()] followed by [joinRoom(r)]: the two leave the client, its
    connection included, in the same state. *)
Theorem joinRoom_is_leaveRoom_then_joinRoom :
  forall (W : Type) (M : Index.WebsocketManager W) (Func : Type)
         (c : Index.Client W Func) (r : string),
    truthy_id (Index.id (Index.room c)) = true ->
    Index.joinRoom r c = Index.joinRoom r (Index.leaveRoom c).
Proof.
  intros W M Func c r Hin.
  unfold Index.joinRoom, Index.joinRoom_send.
  rewrite Hin. reflexivity.
Qed.

Lemma joinRoom_is_leaveRoom_then_joinRoom_witness :
  Index.joinRoom "B" client_in_A = Index.joinRoom "B" (Index.leaveRoom client_in_A).
Proof.
  apply (joinRoom_is_leaveRoom_then_joinRoom Z CounterManager nat client_in_A "B").
  reflexivity.
Defined.

Lemma alternates_app (b : bool) (xs ys : list Packet) :
  alternates b (xs ++ ys) =
    match alternates b xs with
    | Some b' => alternates b' ys
    | None => None
    end.
Proof.
  revert b.
  induction xs as [|p xs IH]; intros b; simpl; [reflexivity|].
  destruct (String.eqb (pk_command p) "joinroom").
  - destruct b; [reflexivity | apply IH].
  - destruct (String.eqb (pk_command p) "leaveroom"); apply IH.
Qed.

Lemma perform_alternates (W : Type) (M : Index.WebsocketManager W) (Func : Type)
  (k : Index.Call) (c : Index.Client W Func) :
  nonempty_joins [k] = true ->
  exists new,
    sent (Index.ws (Index.perform k c)) = sent (Index.ws c) ++ new
    /\ alternates (truthy_id (Index.id (Index.room c))) new
       = Some (truthy_id (Index.id (Index.room (Index.perform k c)))).
Proof.
  intros Hk.
  destruct k; simpl in *;
    try (eexists [_]; split; [reflexivity | reflexivity]);
    try (exists []; split; [now rewrite app_nil_r | reflexivity]).
  rewrite andb_true_r in Hk.
  unfold Index.joinRoom, Index.joinRoom_send.
  destruct (truthy_id (Index.id (Index.room c))).
  - eexists [_; _]. split; [simpl; now rewrite <- app_assoc|].
    simpl. now rewrite Hk.
  - eexists [_]. split; [reflexivity|]. simpl. now rewrite Hk.
Qed.

(** X7. Leave before join, on the wire.  Whatever calls are made on a
    client, none of them joining the room with the empty id, the packets
    they send never carry a joinroom while an earlier joinroom is not yet
    followed by a leaveroom; and a join is in force at the end exactly when
    [Room.id] is then a non-empty string.  (The reading of the packets starts
    from whether [Room.id] is a non-empty string before the calls.) *)
Theorem calls_never_send_two_joinrooms_in_a_row :
  forall (W : Type) (M : Index.WebsocketManager W) (Func : Type)
         (ks : list Index.Call) (c : Index.Client W Func),
    nonempty_joins ks = true ->
    exists new,
      sent (Index.ws (Index.perform_all ks c)) = sent (Index.ws c) ++ new
      /\ alternates (truthy_id (Index.id (Index.room c))) new
         = Some (truthy_id (Index.id (Index.room (Index.perform_all ks c)))).
Proof.
  intros W M Func ks. unfold Index.perform_all.
  induction ks as [|k ks IH]; intros c Hks; simpl.
  - exists []. split; [now rewrite app_nil_r | reflexivity].
  - simpl in Hks. apply andb_true_iff in Hks. destruct Hks as [Hk Hks].
    destruct (perform_alternates W M Func k c) as (n1 & E1 & A1).
    { simpl. now rewrite Hk. }
    destruct (IH (Index.perform k c) Hks) as (n2 & E2 & A2).
    exists (n1 ++ n2). split.
    + now rewrite E2, E1, <- app_assoc.
    + now rewrite alternates_app, A1.
Qed.

Lemma calls_never_send_two_joinrooms_in_a_row_witness :
  exists new,
    sent (Index.ws (Index.perform_all
                      [Index.CJoinRoom "B"; Index.CRoomMessage "hi"; Index.CJoinRoom "C"]
                      client_in_A))
    = sent (Index.ws client_in_A) ++ new
    /\ alternates true new = Some true.
Proof.
  apply (calls_never_send_two_joinrooms_in_a_row Z CounterManager nat
           [Index.CJoinRoom "B"; Index.CRoomMessage "hi"; Index.CJoinRoom "C"]
           client_in_A).
  reflexivity.
Defined.

Lemma perform_local_state (W : Type) (M : Index.WebsocketManager W) (Func : Type)
  (k : Index.Call) (c : Index.Client W Func) :
  Index.local_state (Index.perform k c) =
    (Index.events c, token_after k (Index.token c), Index.user c,
     Index.mkRoom (room_after k (Index.id (Index.room c))), Index.handling c).
Proof.
  destruct c as [evs w t u [i] h].
  destruct k; try reflexivity.
  unfold Index.perform, Index.joinRoom, Index.joinRoom_send. simpl.
  now destruct (truthy_id i).
Qed.

(** X8. What the methods of index.ts themselves do to the local state,
    over any sequence of calls of the declared methods of [Client],
    [ClientUser] and [Room] and of the inherited [on]: the subscriptions are
    the old ones followed by those of the [on] calls, in order, and no
    other method touches them; the token is that of the last [login] (the
    old one if there is none); [Room.id] is set by the last [joinRoom] or
    cleared by the last [leaveRoom], whichever came later (the old one if
    there is neither); no method assigns the user or the handling. *)
Theorem local_state_follows_calls :
  forall (W : Type) (M : Index.WebsocketManager W) (Func : Type)
         (acts : list (Action Func)) (c : Index.Client W Func),
    Index.local_state (act_all acts c) =
      (on_all (registrations_of acts) (Index.events c),
       fold_left (fun t k => token_after k t) (calls_of acts) (Index.token c),
       Index.user c,
       Index.mkRoom (fold_left (fun i k => room_after k i) (calls_of acts)
                       (Index.id (Index.room c))),
       Index.handling c).
Proof.
  intros W M Func acts. unfold act_all.
  induction acts as [|a acts IH]; intros c; simpl.
  - now destruct c as [evs w t u [i] h].
  - rewrite IH. destruct a as [k|ev f]; simpl.
    + pose proof (perform_local_state W M Func k c) as E.
      unfold Index.local_state in E. inversion E as [[E1 E2 E3 E4 E5]].
      rewrite E4. reflexivity.
    + reflexivity.
Qed.

Lemma stamped_app (W : Type) (read : W -> Z) (handle : Packet -> W -> W)
  (m : W) (xs ys : list Packet) :
  stamped read handle m (xs ++ ys) =
    stamped read handle m xs && stamped read handle (replay handle m xs) ys.
Proof.
  revert m.
  induction xs as [|p xs IH]; intros m; simpl; [reflexivity|].
  rewrite IH. now rewrite andb_assoc.
Qed.

Lemma replay_app (W : Type) (handle : Packet -> W -> W) (m : W) (xs ys : list Packet) :
  replay handle m (xs ++ ys) = replay handle (replay handle m xs) ys.
Proof. unfold replay. apply fold_left_app. Qed.

Lemma perform_stamped (W : Type) (M : Index.WebsocketManager W) (Func : Type)
  (k : Index.Call) (c : Index.Client W Func) :
  only_sends [k] = true ->
  exists new,
    sent (Index.ws (Index.perform k c)) = sent (Index.ws c) ++ new
    /\ stamped Index.messageID Index.send (manager (Index.ws c)) new = true
    /\ manager (Index.ws (Index.perform k c))
       = replay Index.send (manager (Index.ws c)) new.
Proof.
  intros Hk.
  destruct k; try discriminate Hk; simpl;
    try (eexists [_]; split; [reflexivity|]; split; [|reflexivity];
         simpl; unfold Index.ws_messageID; now rewrite ?Z.eqb_refl).
  unfold Index.joinRoom, Index.joinRoom_send.
  destruct (truthy_id (Index.id (Index.room c))).
  - eexists [_; _]. split; [simpl; now rewrite <- app_assoc|].
    split; [|reflexivity].
    simpl. unfold Index.ws_messageID. simpl. now rewrite !Z.eqb_refl.
  - eexists [_]. split; [reflexivity|]. split; [|reflexivity].
    simpl. unfold Index.ws_messageID. now rewrite Z.eqb_refl.
Qed.

(** X9. Every id on the wire is the manager's [messageID] at the moment of
    that send: over any sequence of calls other than [login] and [destroy],
    each packet that carries an id carries the [messageID] the manager
    showed after handling all packets sent before it, and the manager ends
    as it is after handling exactly the packets sent, in order. *)
Theorem ids_are_messageID_at_send :
  forall (W : Type) (M : Index.WebsocketManager W) (Func : Type)
         (ks : list Index.Call) (c : Index.Client W Func),
    only_sends ks = true ->
    exists new,
      sent (Index.ws (Index.perform_all ks c)) = sent (Index.ws c) ++ new
      /\ stamped Index.messageID Index.send (manager (Index.ws c)) new = true
      /\ manager (Index.ws (Index.perform_all ks c))
         = replay Index.send (manager (Index.ws c)) new.
Proof.
  intros W M Func ks. unfold Index.perform_all.
  induction ks as [|k ks IH]; intros c Hks; simpl.
  - exists []. split; [now rewrite app_nil_r|]. split; reflexivity.
  - simpl in Hks. apply andb_true_iff in Hks. destruct Hks as [Hk Hks].
    destruct (perform_stamped W M Func k c) as (n1 & E1 & S1 & R1).
    { simpl. now rewrite Hk. }
    destruct (IH (Index.perform k c) Hks) as (n2 & E2 & S2 & R2).
    exists (n1 ++ n2). split; [now rewrite E2, E1, <- app_assoc|]. split.
    + rewrite stamped_app, S1, <- R1. exact S2.
    + now rewrite replay_app, <- R1.
Qed.

Lemma ids_are_messageID_at_send_witness :
  exists new,
    sent (Index.ws (Index.perform_all
                      [Index.CRoomMessage "hi"; Index.CUserInvite "u"; Index.CJoinRoom "B"]
                      client_in_A))
    = sent (Index.ws client_in_A) ++ new
    /\ stamped Index.messageID Index.send 1 new = true
    /\ manager (Index.ws (Index.perform_all
                            [Index.CRoomMessage "hi"; Index.CUserInvite "u"; Index.CJoinRoom "B"]
                            client_in_A))
       = replay Index.send 1 new.
Proof.
  apply (ids_are_messageID_at_send Z CounterManager nat
           [Index.CRoomMessage "hi"; Index.CUserInvite "u"; Index.CJoinRoom "B"]
           client_in_A).
  reflexivity.
Defined.

Lemma perform_commands (W : Type) (M : Index.WebsocketManager W) (Func : Type)
  (k : Index.Call) (c : Index.Client W Func) :
  exists new,
    sent (Index.ws (Index.perform k c)) = sent (Index.ws c) ++ new
    /\ map pk_command new = commands_of_call (Index.id (Index.room c)) k
    /\ Index.id (Index.room (Index.perform k c)) = room_after k (Index.id (Index.room c)).
Proof.
  destruct k; simpl;
    try (eexists [_]; split; [reflexivity|]; split; reflexivity);
    try (exists []; split; [now rewrite app_nil_r|]; split; reflexivity).
  unfold Index.joinRoom, Index.joinRoom_send.
  destruct (truthy_id (Index.id (Index.room c))).
  - eexists [_; _]. split; [simpl; now rewrite <- app_assoc|]. split; reflexivity.
  - eexists [_]. split; [reflexivity|]. split; reflexivity.
Qed.

(** X10. Which packets a sequence of calls sends, by command and in order,
    depends on the calls and on [Room.id] only: [login] and [destroy] send
    nothing through [send], [joinRoom] sends leaveroom and joinroom from a
    non-empty [Room.id] and joinroom alone otherwise, and every other call
    sends its one packet in every state; in particular the room actions
    [message], [selfMode], [setMode] and [setConfig] send whether or not a
    room is joined. *)
Theorem commands_sent_follow_calls :
  forall (W : Type) (M : Index.WebsocketManager W) (Func : Type)
         (ks : list Index.Call) (c : Index.Client W Func),
    exists new,
      sent (Index.ws (Index.perform_all ks c)) = sent (Index.ws c) ++ new
      /\ map pk_command new = commands_sent (Index.id (Index.room c)) ks.
Proof.
  intros W M Func ks. unfold Index.perform_all.
  induction ks as [|k ks IH]; intros c; simpl.
  - exists []. split; [now rewrite app_nil_r | reflexivity].
  - destruct (perform_commands W M Func k c) as (n1 & E1 & C1 & R1).
    destruct (IH (Index.perform k c)) as (n2 & E2 & C2).
    exists (n1 ++ n2). split; [now rewrite E2, E1, <- app_assoc|].
    now rewrite map_app, C1, C2, R1.
Qed.

(** ** The later ClientUser class: sequences of calls *)

(** X11. While the client has no connection, the methods of the later
    class do nothing at all: any sequence of [join], [leave] and
    [setPresence] calls returns the user object as it was, nothing being
    sent or kept for later. *)
Theorem calls_without_connection_do_nothing :
  forall (W : Type) (M : ClientUserFile.WebsocketManager W) (U : Type)
         (ks : list ClientUserFile.Call) (cu : ClientUserFile.ClientUser W U),
    ClientUserFile.ws (ClientUserFile.client cu) = None ->
    ClientUserFile.perform_all ks cu = cu.
Proof.
  intros W M U ks cu Hws. unfold ClientUserFile.perform_all.
  induction ks as [|k ks IH]; simpl; [reflexivity|].
  assert (E : ClientUserFile.perform k cu = cu).
  { destruct k; simpl;
      unfold ClientUserFile.join, ClientUserFile.leave, ClientUserFile.setPresence,
        ClientUserFile.ws_send_packet;
      now rewrite Hws. }
  rewrite E. exact IH.
Qed.

Lemma calls_without_connection_do_nothing_witness :
  ClientUserFile.perform_all
    [ClientUserFile.CJoin "A"; ClientUserFile.CSetPresence VNull; ClientUserFile.CLeave]
    user_offline = user_offline.
Proof.
  apply (calls_without_connection_do_nothing Z CounterSocket unit
           [ClientUserFile.CJoin "A"; ClientUserFile.CSetPresence VNull;
            ClientUserFile.CLeave] user_offline).
  reflexivity.
Defined.

Lemma user_perform_connected (W : Type) (M : ClientUserFile.WebsocketManager W) (U : Type)
  (k : ClientUserFile.Call) (cu : ClientUserFile.ClientUser W U) (w : Connection W) :
  ClientUserFile.ws (ClientUserFile.client cu) = Some w ->
  exists p,
    ClientUserFile.ws (ClientUserFile.client (ClientUserFile.perform k cu))
    = Some (mkConnection (ClientUserFile.send_packet p (manager w)) (sent w ++ [p]))
    /\ pk_command p = command_of k
    /\ stamped ClientUserFile.clientId ClientUserFile.send_packet (manager w) [p] = true.
Proof.
  intros Hws.
  destruct k; simpl;
    unfold ClientUserFile.join, ClientUserFile.leave, ClientUserFile.setPresence,
      ClientUserFile.ws_send_packet;
    rewrite Hws; simpl; eexists; (split; [reflexivity|]); (split; [reflexivity|]);
    simpl; now rewrite ?Z.eqb_refl.
Qed.

(** X12. With a connection, every call of the later class sends exactly
    one packet, whatever the room: over any sequence of [join], [leave] and
    [setPresence] calls the packets sent are, call by call and in order, the
    joinroom, leaveroom or social.presence of that call (so two joins in a
    row send two joinrooms with no leaveroom between them); each id is the
    manager's [clientId] at the moment of that send; and the local state of
    the user object is unchanged. *)
Theorem connected_calls_send_one_packet_each :
  forall (W : Type) (M : ClientUserFile.WebsocketManager W) (U : Type)
         (ks : list ClientUserFile.Call) (cu : ClientUserFile.ClientUser W U)
         (w : Connection W),
    ClientUserFile.ws (ClientUserFile.client cu) = Some w ->
    exists new,
      ClientUserFile.ws (ClientUserFile.client (ClientUserFile.perform_all ks cu))
      = Some (mkConnection (replay ClientUserFile.send_packet (manager w) new)
                (sent w ++ new))
      /\ map pk_command new = map command_of ks
      /\ stamped ClientUserFile.clientId ClientUserFile.send_packet (manager w) new = true
      /\ ClientUserFile.local_state (ClientUserFile.perform_all ks cu)
         = ClientUserFile.local_state cu.
Proof.
  intros W M U ks. unfold ClientUserFile.perform_all.
  induction ks as [|k ks IH]; intros cu w Hws; simpl.
  - exists []. rewrite app_nil_r. destruct w as [m s].
    repeat split. exact Hws.
  - destruct (user_perform_connected W M U k cu w Hws) as (p & E1 & C1 & S1).
    destruct (IH _ _ E1) as (new & E2 & C2 & S2 & L2).
    simpl in E2, S2.
    exists (p :: new). split; [|split; [|split]].
    + rewrite E2. simpl. now rewrite <- app_assoc.
    + simpl. now rewrite C1, C2.
    + simpl in S1. rewrite andb_true_r in S1. simpl. now rewrite S1, S2.
    + rewrite L2. destruct k; apply local_ws_send_packet.
Qed.

Lemma connected_calls_send_one_packet_each_witness :
  exists new,
    ClientUserFile.ws
      (ClientUserFile.client
         (ClientUserFile.perform_all
            [ClientUserFile.CJoin "B"; ClientUserFile.CJoin "C"] user_in_A))
    = Some (mkConnection (replay ClientUserFile.send_packet 0 new) ([] ++ new))
    /\ map pk_command new = ["joinroom"; "joinroom"]
    /\ stamped ClientUserFile.clientId ClientUserFile.send_packet 0 new = true
    /\ ClientUserFile.local_state
         (ClientUserFile.perform_all
            [ClientUserFile.CJoin "B"; ClientUserFile.CJoin "C"] user_in_A)
       = ClientUserFile.local_state user_in_A.
Proof.
  apply (connected_calls_send_one_packet_each Z CounterSocket unit
           [ClientUserFile.CJoin "B"; ClientUserFile.CJoin "C"] user_in_A
           (mkConnection 0 [])).
  reflexivity.
Defined.
